(** * pytelegraf: the metric client, its transports and the timer helper

    A shallow embedding of [telegraf/client.py] and [telegraf/context.py].
    Python objects become records, methods become functions over an explicit
    world, exceptions become the [Raise] branch of an outcome type.  The
    modules [telegraf.protocol] and [telegraf.utils] are imported by the
    client; what the client needs from them is modelled in [Module protocol]
    and by the flag [is_higher_py35]. *)

From Stdlib Require Import ZArith Lia Ascii String DecimalString.
From stdpp Require Import base option list sorting gmap.

Local Open Scope Z_scope.

(** ** Python values shared by every module *)

Module Py.

(** A text string is its sequence of code points. *)
Abbreviation pystr := (list Z).
(** A byte string is its sequence of byte values. *)
Abbreviation pybytes := (list Z).

(** String literals of the source, written as Rocq strings. *)
Definition u (s : string) : pystr :=
  (fun a => Z.of_N (N_of_ascii a)) <$> list_ascii_of_string s.

(** [str(n)] for an [int]. *)
Definition str_of_int (n : Z) : pystr :=
  u (NilZero.string_of_int (Z.to_int n)).

(** One code point in UTF-8; [None] where the strict codec refuses it
    (a lone surrogate, or a number that is no code point). *)
Definition utf8_char (c : Z) : option pybytes :=
  if c <? 0 then None
  else if c <? 0x80 then Some [c]
  else if c <? 0x800 then
    Some [Z.lor 0xC0 (Z.shiftr c 6); Z.lor 0x80 (Z.land c 0x3F)]
  else if (0xD800 <=? c) && (c <=? 0xDFFF) then None
  else if c <? 0x10000 then
    Some [Z.lor 0xE0 (Z.shiftr c 12);
          Z.lor 0x80 (Z.land (Z.shiftr c 6) 0x3F);
          Z.lor 0x80 (Z.land c 0x3F)]
  else if c <? 0x110000 then
    Some [Z.lor 0xF0 (Z.shiftr c 18);
          Z.lor 0x80 (Z.land (Z.shiftr c 12) 0x3F);
          Z.lor 0x80 (Z.land (Z.shiftr c 6) 0x3F);
          Z.lor 0x80 (Z.land c 0x3F)]
  else None.

(** The code points the codec accepts: Unicode scalar values. *)
Definition scalar_value (c : Z) : Prop :=
  0 <= c < 0x110000 /\ ~ (0xD800 <= c <= 0xDFFF).

(** The codec over a whole string. *)
Fixpoint utf8 (s : pystr) : option pybytes :=
  match s with
  | [] => Some []
  | c :: s' =>
      match utf8_char c, utf8 s' with
      | Some b, Some bs => Some (b ++ bs)
      | _, _ => None
      end
  end.

(** The exception classes the client meets, with Python's base classes.
    [socket_error] is [socket.error] (an alias of [OSError] on Python 3);
    [UserError n] stands for the application's own exception classes. *)
Inductive pyclass :=
  | BaseException | Exception
  | socket_error | socket_timeout | socket_gaierror | socket_herror
  | RuntimeError | NotImplementedError
  | TypeError | AttributeError | ImportError
  | ValueError | UnicodeError | UnicodeEncodeError
  | ArithmeticError | OverflowError
  | InvalidMetricError
  | CancelledError
  | UserError (n : nat).

Global Instance pyclass_eq_dec : EqDecision pyclass.
Proof. solve_decision. Defined.

Definition base_class (c : pyclass) : option pyclass :=
  match c with
  | BaseException => None
  | Exception => Some BaseException
  | socket_error => Some Exception
  | socket_timeout | socket_gaierror | socket_herror => Some socket_error
  | RuntimeError => Some Exception
  | NotImplementedError => Some RuntimeError
  | TypeError | AttributeError | ImportError | ValueError => Some Exception
  | UnicodeError => Some ValueError
  | UnicodeEncodeError => Some UnicodeError
  | ArithmeticError => Some Exception
  | OverflowError => Some ArithmeticError
  | InvalidMetricError => Some Exception
  | CancelledError => Some BaseException
  | UserError _ => Some Exception
  end.

(** [issubclass c d], walking the chain of base classes. *)
Fixpoint issubclass_fuel (fuel : nat) (c d : pyclass) : bool :=
  bool_decide (c = d) ||
  match fuel, base_class c with
  | S fuel', Some b => issubclass_fuel fuel' b d
  | _, _ => false
  end.

Definition issubclass (c d : pyclass) : bool := issubclass_fuel 8 c d.

(** An exception object: its class and its message. *)
Record exn := Exn { exn_class : pyclass; exn_msg : pystr }.

Definition isinstance (e : exn) (c : pyclass) : bool :=
  issubclass (exn_class e) c.

(** [except (c1, c2, ...)] catches [e]. *)
Definition caught_by (e : exn) (classes : list pyclass) : bool :=
  existsb (isinstance e) classes.

(** How a call ends. *)
Inductive outcome (A : Type) :=
  | Ret (a : A)
  | Raise (e : exn).
Arguments Ret {A} a.
Arguments Raise {A} e.

(** A computation over a state [S] that may raise. *)
Definition SE (S A : Type) : Type := S -> outcome A * S.

Definition ret {S A} (a : A) : SE S A := fun s => (Ret a, s).
Definition raise {S A} (e : exn) : SE S A := fun s => (Raise e, s).
Definition lift {S A} (r : outcome A) : SE S A := fun s => (r, s).

Definition bind {S A B} (m : SE S A) (k : A -> SE S B) : SE S B :=
  fun s =>
    match m s with
    | (Ret a, s1) => k a s1
    | (Raise e, s1) => (Raise e, s1)
    end.

(** [try: body finally: fin].  The clean-up runs on both exits; if it
    raises, its exception replaces the outcome of the body. *)
Definition try_finally {S A} (body : SE S A) (fin : SE S unit) : SE S A :=
  fun s =>
    match body s with
    | (r, s1) =>
        match fin s1 with
        | (Ret _, s2) => (r, s2)
        | (Raise e, s2) => (Raise e, s2)
        end
    end.

(** [try: body except classes: handler]. *)
Definition try_except {S A} (body : SE S A) (classes : list pyclass)
    (handler : SE S A) : SE S A :=
  fun s =>
    match body s with
    | (Ret a, s1) => (Ret a, s1)
    | (Raise e, s1) =>
        if caught_by e classes then handler s1 else (Raise e, s1)
    end.

(** What the client asks of [float]: [a - b], [k * a] for an [int] k,
    [int(round(a))] and the decimal text of a float. *)
Class PyFloat (F : Type) := {
  fsub : F -> F -> F;
  fmul_int : Z -> F -> F;
  int_round : F -> Z;
  float_repr : F -> pystr
}.

(** Truth value of [None]. *)
Definition bool_of_None (_ : unit) : bool := false.

(** Truth value of a name that is [None] or a string. *)
Definition bool_of_name (name : option pystr) : bool :=
  match name with
  | None => false
  | Some [] => false
  | Some (_ :: _) => true
  end.

End Py.

Export Py.

Notation "x <~ c ;; k" := (bind c (fun x => k))
  (at level 100, c at next level, right associativity).

(** ** telegraf.protocol: the line encoder *)

Module protocol.

(** Modelled from the spec: a field value is an integer, a float, a string
    or a boolean ([telegraf/protocol.py] is not among the sources). *)
Inductive fieldval (F : Type) :=
  | FInt (n : Z)
  | FFloat (x : F)
  | FStr (s : pystr)
  | FBool (b : bool).
Arguments FInt {F} n.
Arguments FFloat {F} x.
Arguments FStr {F} s.
Arguments FBool {F} b.

(** The [values] argument as callers pass it: [None], one scalar, or a
    dict from field names to field values. *)
Inductive pyvalues (F : Type) :=
  | VNone
  | VScalar (v : fieldval F)
  | VDict (d : gmap pystr (fieldval F)).
Arguments VNone {F}.
Arguments VScalar {F} v.
Arguments VDict {F} d.

(** Modelled from the spec: the measurement handed to the encoder, the
    arguments of [Line(measurement, values, tags, timestamp)]. *)
Record Line (F : Type) := mkLine {
  measurement : option pystr;
  values : pyvalues F;
  tags : gmap pystr pystr;
  timestamp : option Z
}.
Arguments mkLine {F} _ _ _ _.
Arguments measurement {F} _.
Arguments values {F} _.
Arguments tags {F} _.
Arguments timestamp {F} _.

Section Encoder.
Context {F : Type} `{PyFloat F}.

(** Modelled from the spec: commas, spaces and equals signs are escaped
    with a backslash, every other character is emitted as it is. *)
Definition escape_char (c : Z) : pystr :=
  if bool_decide (c = 44) || bool_decide (c = 32) || bool_decide (c = 61)
  then [92; c] else [c].

Definition format_string (s : pystr) : pystr := s ≫= escape_char.

(** Modelled from the spec: inside a string field, double quotes and
    backslashes are escaped. *)
Definition quote_char (c : Z) : pystr :=
  if bool_decide (c = 34) || bool_decide (c = 92) then [92; c] else [c].

(** Modelled from the spec: type-specific formatting of a field value:
    integer digits with the suffix [i], a float in plain decimal with no
    suffix, a boolean as [true]/[false], a string in double quotes. *)
Definition format_value (v : fieldval F) : pystr :=
  match v with
  | FInt n => str_of_int n ++ u "i"
  | FFloat x => float_repr x
  | FBool b => if b then u "true" else u "false"
  | FStr s => [34] ++ (s ≫= quote_char) ++ [34]
  end.

(** Lexicographic order on strings, by code point. *)
Fixpoint str_leb (a b : pystr) : bool :=
  match a, b with
  | [], _ => true
  | _ :: _, [] => false
  | x :: a', y :: b' => (x <? y) || ((x =? y) && str_leb a' b')
  end.

Definition key_le {V} (p q : pystr * V) : Prop := str_leb p.1 q.1.

(** The items of a dict, sorted by key. *)
Definition sorted_items {V} (d : gmap pystr V) : list (pystr * V) :=
  merge_sort key_le (map_to_list d).

(** [sep.join(parts)]. *)
Fixpoint join (sep : pystr) (parts : list pystr) : pystr :=
  match parts with
  | [] => []
  | [p] => p
  | p :: rest => p ++ sep ++ join sep rest
  end.

(** Modelled from the spec: a scalar is one field under the key [value]. *)
Definition field_items (v : pyvalues F) : list (pystr * fieldval F) :=
  match v with
  | VNone => []
  | VScalar x => [(u "value", x)]
  | VDict d => sorted_items d
  end.

(** Modelled from the spec: fields are [key=value] pairs joined by
    commas, keys escaped like the name. *)
Definition get_output_values (l : Line F) : pystr :=
  join (u ",")
    ((fun kv => format_string kv.1 ++ u "=" ++ format_value kv.2)
       <$> field_items (values l)).

(** Modelled from the spec: tags are [key=value] pairs in key order,
    joined by commas, keys and values escaped like the name. *)
Definition get_output_tags (l : Line F) : pystr :=
  join (u ",")
    ((fun kv => format_string kv.1 ++ u "=" ++ format_string kv.2)
       <$> sorted_items (tags l)).

(** Modelled from the spec: a timestamp, if present, follows a single
    space as a bare integer; an absent one leaves no trailing space. *)
Definition get_output_timestamp (l : Line F) : pystr :=
  match timestamp l with
  | Some t => u " " ++ str_of_int t
  | None => []
  end.

(** Modelled from the spec: [encode(name, fields, tags, timestamp)], the
    method [Line.to_line_protocol].  It fails with an invalid-metric error
    only when the name is empty; the tag block is omitted when there are
    no tags. *)
Definition to_line_protocol (l : Line F) : outcome pystr :=
  match measurement l with
  | Some (c :: n) =>
      let tag_text := get_output_tags l in
      Ret (format_string (c :: n)
           ++ (if bool_decide (tags l = ∅) then [] else u "," ++ tag_text)
           ++ u " " ++ get_output_values l
           ++ get_output_timestamp l)
  | _ => Raise (Exn InvalidMetricError (u "Must have measurement"))
  end.

End Encoder.

End protocol.

(** ** The world the client runs in *)

Module runtime.

(** The wall clock gives its [tick]-th reading at each call of [time()];
    [calls] lists, in order, the payloads handed to the client's [send];
    [transport] is the state behind that method (a socket, a session). *)
Record world (F T : Type) := World {
  tick : nat;
  clock : nat -> F;
  calls : list pystr;
  transport : T
}.
Arguments World {F T} _ _ _ _.
Arguments tick {F T} _.
Arguments clock {F T} _.
Arguments calls {F T} _.
Arguments transport {F T} _.

(** [time.time()]. *)
Definition time {F T} : SE (world F T) F :=
  fun w =>
    (Ret (clock w (tick w)),
     World (S (tick w)) (clock w) (calls w) (transport w)).

(** A function object of the application: the attributes the decorator
    reads, whether it is an asynchronous function, and its body.  A call
    of an asynchronous function stands for the awaited run of its
    coroutine, whatever else runs in between included. *)
Record pyfunc (F T A V : Type) := Func {
  __module__ : pystr;
  __name__ : pystr;
  is_async : bool;
  call : A -> SE (world F T) V
}.
Arguments Func {F T A V} _ _ _ _.
Arguments __module__ {F T A V} _.
Arguments __name__ {F T A V} _.
Arguments is_async {F T A V} _.
Arguments call {F T A V} _ _.

(** [await co]: the coroutine run to its end. *)
Definition await {S V} (co : SE S V) : SE S V := co.

(** The [with] statement over a context manager:
    [with mgr: body].  [__exit__] gets the exception of the body, if any;
    a true result suppresses it. *)
Definition with_stmt {S Mgr R} (enter : SE S Mgr)
    (exit : Mgr -> option exn -> SE S R) (truth : R -> bool)
    (body : Mgr -> SE S unit) : SE S unit :=
  fun s =>
    match enter s with
    | (Raise e, s1) => (Raise e, s1)
    | (Ret mgr, s1) =>
        match body mgr s1 with
        | (Ret _, s2) =>
            match exit mgr None s2 with
            | (Ret _, s3) => (Ret tt, s3)
            | (Raise e', s3) => (Raise e', s3)
            end
        | (Raise e, s2) =>
            match exit mgr (Some e) s2 with
            | (Ret r, s3) => if truth r then (Ret tt, s3) else (Raise e, s3)
            | (Raise e', s3) => (Raise e', s3)
            end
        end
    end.

End runtime.

Export runtime.

(** ** telegraf/context.py *)

Module context.

Section Context_.
Context {F T A V Self : Type}.
(** The method [self._send] of the timer passed in. *)
Variable _send : Self -> F -> SE (world F T) unit.

(** Timing wrapper for async functions. *)
Definition wrapped_coroutine (self : Self) (func : pyfunc F T A V)
    : pyfunc F T A V :=
  let wrapped_co := fun args =>
    start <~ time ;;
    try_finally (await (call func args)) (_send self start) in
  Func (__module__ func) (__name__ func) true wrapped_co.

End Context_.

End context.

(** ** telegraf/client.py *)

Module client.

Section Fallback.
Context {F T A V Self : Type}.
(** [telegraf.utils.is_higher_py35()]. *)
Variable is_higher_py35 : bool.
Variable _send : Self -> F -> SE (world F T) unit.

Definition wrapped_coroutine (self : Self) (func : pyfunc F T A V)
    : outcome (pyfunc F T A V) :=
  if is_higher_py35 then Ret (context.wrapped_coroutine _send self func)
  else Raise (Exn NotImplementedError
                (u "Async timer decorator requires Python 3.5 or higher.")).

(** [asyncio.iscoroutinefunction] on Python 3.5 or higher, else the stub
    that answers [False] whatever it is given. *)
Definition iscoroutinefunction (func : pyfunc F T A V) : bool :=
  if is_higher_py35 then is_async func else false.

End Fallback.

Module ClientBase.

Section ClientBase_.
Context {F : Type} `{PyFloat F} {T : Type}.

(** The client object; [send] is the method of the concrete subclass. *)
Record t := mk {
  host : pystr;
  port : Z;
  tags : gmap pystr pystr;
  send : pystr -> SE T unit
}.

(** [tags or {}]. *)
Definition or_empty (tags : option (gmap pystr pystr)) : gmap pystr pystr :=
  match tags with
  | Some d => d
  | None => ∅
  end.

(** [send] is the subclass's method, still waiting for the attributes of
    [self] it reads. *)
Definition __init__ (send : pystr -> Z -> pystr -> SE T unit)
    (host : pystr) (port : Z) (tags : option (gmap pystr pystr)) : t :=
  mk host port (or_empty tags) (send host port).

(** [self.send(data)], noted in the world. *)
Definition call_send (self : t) (data : pystr) : SE (world F T) unit :=
  fun w =>
    match send self data (transport w) with
    | (r, tr) => (r, World (tick w) (clock w) (calls w ++ [data]) tr)
    end.

(** [values in (None, {})]. *)
Definition in_None_or_empty (values : protocol.pyvalues F) : bool :=
  match values with
  | protocol.VNone => true
  | protocol.VScalar _ => false
  | protocol.VDict d => bool_decide (d = ∅)
  end.

(** [dict(base, **kwargs)]: the items of [base], then those of [kwargs]
    over them. *)
Definition dict_merge (base kwargs : gmap pystr pystr) : gmap pystr pystr :=
  kwargs ∪ base.

(** [self.tags], for the methods that also have a parameter [tags]. *)
Definition self_tags (self : t) : gmap pystr pystr := tags self.

Definition metric (self : t) (measurement_name : option pystr)
    (values : protocol.pyvalues F) (tags : option (gmap pystr pystr))
    (timestamp : option Z) : SE (world F T) unit :=
  if negb (bool_of_name measurement_name) || in_None_or_empty values then
    ret tt
  else
    let tags := or_empty tags in
    let all_tags := dict_merge (self_tags self) tags in
    let line := protocol.mkLine measurement_name values all_tags timestamp in
    data <~ lift (protocol.to_line_protocol line) ;;
    call_send self data.

End ClientBase_.

Arguments t : clear implicits.

End ClientBase.

Module TelegrafClient.

(** The UDP socket as the client sees it: the [sendto] calls made on it,
    each with its datagram and its address, and for the n-th call the
    exception the operating system answers it with, if any. *)
Record socket := Socket {
  sendto_calls : list (pybytes * (pystr * Z));
  fault : nat -> option exn
}.

(** [socket.sendto(data, address)]. *)
Definition sendto (data : pybytes) (address : pystr * Z) : SE socket Z :=
  fun s =>
    let s' := Socket (sendto_calls s ++ [(data, address)]) (fault s) in
    match fault s (length (sendto_calls s)) with
    | Some e => (Raise e, s')
    | None => (Ret (Z.of_nat (length data)), s')
    end.

(** [data.encode('utf8')]. *)
Definition encode_utf8 (data : pystr) : outcome pybytes :=
  match utf8 data with
  | Some b => Ret b
  | None => Raise (Exn UnicodeEncodeError
                     (u "'utf-8' codec can't encode: surrogates not allowed"))
  end.

(** Sends the given data to the socket via UDP. *)
Definition send (host : pystr) (port : Z) (data : pystr) : SE socket unit :=
  try_except
    (encoded <~ lift (encode_utf8 data) ;;
     _ <~ sendto (encoded ++ [10]) (host, port) ;;
     ret tt)
    [socket_error; RuntimeError]
    (ret tt).

Definition __init__ (host : pystr) (port : Z)
    (tags : option (gmap pystr pystr)) : ClientBase.t socket :=
  ClientBase.__init__ send host port tags.

End TelegrafClient.

Module HttpClient.

(** The session of [requests_futures]: the requests handed to it, each
    with its URL and its body. *)
Record session := Session {
  posts : list (pystr * pystr)
}.

(** [FuturesSession.post(url=..., data=...)]: the request is queued for a
    background thread. *)
Definition post (url data : pystr) : SE session unit :=
  fun s => (Ret tt, Session (posts s ++ [(url, data)])).

(** ['http://{host}:{port}/write'.format(host=..., port=...)]. *)
Definition url (host : pystr) (port : Z) : pystr :=
  u "http://" ++ host ++ u ":" ++ str_of_int port ++ u "/write".

(** Send the data in a separate thread via HTTP POST.  [self.url] is
    built once from [host] and [port], which do not change afterwards. *)
Definition send (host : pystr) (port : Z) (data : pystr) : SE session unit :=
  post (url host port) data.

(** [requests_futures] tells whether the package can be imported. *)
Definition __init__ (requests_futures : bool) (host : pystr) (port : Z)
    (tags : option (gmap pystr pystr)) : outcome (ClientBase.t session) :=
  if requests_futures then Ret (ClientBase.__init__ send host port tags)
  else Raise (Exn ImportError
         (u "pytelegraf[http] must be installed to use HTTP transport")).

End HttpClient.

Module TimerHelper.

Section TimerHelper_.
Context {F : Type} `{PyFloat F} {T A V : Type}.
Variable is_higher_py35 : bool.

(** The timer object; [start_time] is unset until [__enter__]. *)
Record t := mk {
  client : ClientBase.t T;
  measurement_name : option pystr;
  tags : gmap pystr pystr;
  use_ms : bool;
  start_time : option F
}.

Definition __init__ (client : ClientBase.t T)
    (measurement_name : option pystr) (tags : option (gmap pystr pystr))
    (use_ms : bool) : t :=
  mk client measurement_name (ClientBase.or_empty tags) use_ms None.

Definition _send (self : t) (start_time : F) : SE (world F T) unit :=
  now <~ time ;;
  let elapsed := fsub now start_time in
  let tags := tags self in
  let '(elapsed, tags) :=
    if use_ms self then
      (protocol.FInt (int_round (fmul_int 1000 elapsed)),
       <[u "units" := u "ms"]> tags)
    else
      (protocol.FFloat elapsed, <[u "units" := u "s"]> tags) in
  let line :=
    protocol.mkLine (measurement_name self) (protocol.VScalar elapsed)
      tags None in
  data <~ lift (protocol.to_line_protocol line) ;;
  ClientBase.call_send (client self) data.

(** The inner function [wrapped] of [__call__]. *)
Definition wrapped (self : t) (func : pyfunc F T A V) : pyfunc F T A V :=
  Func (__module__ func) (__name__ func) false
    (fun args =>
       start <~ time ;;
       try_finally (call func args) (_send self start)).

(** Decorator helper for timing function calls.  The result is the timer
    as the call leaves it, and the wrapper or the exception raised. *)
Definition __call__ (self : t) (func : pyfunc F T A V)
    : t * outcome (pyfunc F T A V) :=
  let self :=
    if negb (bool_of_name (measurement_name self)) then
      mk (client self)
         (Some (__module__ func ++ u "." ++ __name__ func))
         (tags self) (use_ms self) (start_time self)
    else self in
  if iscoroutinefunction is_higher_py35 func then
    (self, wrapped_coroutine is_higher_py35 _send self func)
  else
    (self, Ret (wrapped self func)).

Definition __enter__ (self : t) : SE (world F T) t :=
  if negb (bool_of_name (measurement_name self)) then
    raise (Exn TypeError (u "No metric name specified."))
  else
    now <~ time ;;
    ret (mk (client self) (measurement_name self) (tags self)
            (use_ms self) (Some now)).

(** [exc] stands for the triple [(type, value, traceback)].  The method
    has no [return], so a call that ends returns [None]. *)
Definition __exit__ (self : t) (exc : option exn) : SE (world F T) unit :=
  match start_time self with
  | Some start => _send self start
  | None =>
      raise (Exn AttributeError
               (u "'TimerHelper' object has no attribute 'start_time'"))
  end.

(** [with self: body]. *)
Definition with_timer (self : t) (body : t -> SE (world F T) unit)
    : SE (world F T) unit :=
  with_stmt (__enter__ self) __exit__ bool_of_None body.

End TimerHelper_.

Arguments t : clear implicits.

End TimerHelper.

(** [ClientBase.timer]. *)
Definition timer {F T : Type} (self : ClientBase.t T)
    (measurement_name : option pystr) (tags : option (gmap pystr pystr))
    (use_ms : bool) : TimerHelper.t F T :=
  TimerHelper.__init__ self measurement_name tags use_ms.

End client.

(** ** Concrete clients, clocks and worlds *)

Module examples.

(** A clock that ticks in whole seconds: a float is its number of
    seconds, written with one decimal. *)
#[export] Instance whole_seconds : PyFloat Z := {|
  fsub := Z.sub;
  fmul_int := Z.mul;
  int_round := fun x => x;
  float_repr := fun x => str_of_int x ++ u ".0"
|}.

(** A socket on which nothing fails, and one that refuses every datagram. *)
Definition quiet_socket : client.TelegrafClient.socket :=
  client.TelegrafClient.Socket [] (fun _ => None).

Definition refusing_socket : client.TelegrafClient.socket :=
  client.TelegrafClient.Socket []
    (fun _ => Some (Exn socket_error (u "Connection refused"))).

(** A socket that answers every datagram with an error of the arguments,
    not of the network. *)
Definition overflowing_socket : client.TelegrafClient.socket :=
  client.TelegrafClient.Socket []
    (fun _ => Some (Exn OverflowError (u "port must be 0-65535."))).

(** The n-th reading of the clock is [100 + 2 * n] seconds. *)
Definition world0 {T : Type} (tr : T) : world Z T :=
  World 0%nat (fun n => 100 + 2 * Z.of_nat n) [] tr.

Definition udp_client : client.ClientBase.t client.TelegrafClient.socket :=
  client.TelegrafClient.__init__ (u "localhost") 8094
    (Some {[u "env" := u "prod"]}).

Definition http_client : client.ClientBase.t client.HttpClient.session :=
  client.ClientBase.__init__ client.HttpClient.send (u "localhost") 8094 None.

(** An application function that takes no time and returns its argument,
    and one that raises. *)
Definition identity {T : Type} : pyfunc Z T Z Z :=
  Func (u "app") (u "identity") false (fun x => ret x).

Definition failing {T : Type} : pyfunc Z T Z Z :=
  Func (u "app") (u "failing") false
    (fun _ => raise (Exn (UserError 0) (u "boom"))).

Definition fetch {T : Type} : pyfunc Z T Z Z :=
  Func (u "app") (u "fetch") true (fun x => ret (x + 1)).

(** A timer of the UDP client, reporting in milliseconds, without a name
    and with one that already carries a [units] tag. *)
Definition unnamed_timer : client.TimerHelper.t Z client.TelegrafClient.socket :=
  client.timer udp_client None None true.

Definition job_timer : client.TimerHelper.t Z client.TelegrafClient.socket :=
  client.timer udp_client (Some (u "job"))
    (Some {[u "units" := u "hours"]}) true.

(** The unnamed timer once it decorated [identity]. *)
Definition named_identity_timer
    : client.TimerHelper.t Z client.TelegrafClient.socket :=
  client.TimerHelper.mk udp_client (Some (u "app" ++ u "." ++ u "identity"))
    ∅ true None.

(** A timer of the HTTP client, reporting in seconds. *)
Definition http_timer : client.TimerHelper.t Z client.HttpClient.session :=
  client.timer http_client (Some (u "job")) None false.

(** A block that raises. *)
Definition failing_body {T : Type} (_ : client.TimerHelper.t Z T)
    : SE (world Z T) unit :=
  raise (Exn (UserError 0) (u "boom")).

End examples.

(** ** Properties of the client *)

Import client.

Section Properties.
Context {F : Type} `{PyFloat F} {T : Type}.

Lemma to_line_protocol_named (name : option pystr)
    (values : protocol.pyvalues F) (tags : gmap pystr pystr)
    (timestamp : option Z) :
  bool_of_name name = true ->
  exists data,
    protocol.to_line_protocol (protocol.mkLine name values tags timestamp)
    = Ret data.
Proof.
  intros Hname. unfold protocol.to_line_protocol. simpl.
  destruct name as [[|c n]|]; try discriminate. eauto.
Qed.


Lemma calls_call_send (self : ClientBase.t T) (data : pystr)
    (w : world F T) :
  calls (ClientBase.call_send self data w).2 = calls w ++ [data].
Proof.
  unfold ClientBase.call_send.
  destruct (ClientBase.send self data (transport w)); reflexivity.
Qed.

(** C1.  A call of [metric] whose name is [None] or empty, or whose values
    are [None] or the empty dict, returns [None] without raising and leaves
    the world as it was: no payload reaches [send], the transport is not
    touched, the clock is not read. *)
Theorem metric_empty_is_noop (self : ClientBase.t T)
    (measurement_name : option pystr) (values : protocol.pyvalues F)
    (tags : option (gmap pystr pystr)) (timestamp : option Z)
    (w : world F T) :
  measurement_name = None \/ measurement_name = Some [] \/
  values = protocol.VNone \/ values = protocol.VDict ∅ ->
  ClientBase.metric self measurement_name values tags timestamp w
  = (Ret tt, w).
Proof.
  intros Hempty. unfold ClientBase.metric.
  destruct Hempty as [-> | [-> | [-> | ->]]]; try reflexivity.
  - rewrite orb_true_r. reflexivity.
  - simpl. rewrite bool_decide_eq_true_2 by reflexivity.
    rewrite orb_true_r. reflexivity.
Qed.


Section Timer.
Context {A V : Type}.

Lemma calls_time (w : world F T) : calls (time w).2 = calls w.
Proof. reflexivity. Qed.

(** What [_send] does when the timer has a name. *)
Lemma send_report (self : TimerHelper.t F T) (start_time : F)
    (w : world F T) :
  bool_of_name (TimerHelper.measurement_name self) = true ->
  let elapsed := fsub (clock w (tick w)) start_time in
  let value :=
    if TimerHelper.use_ms self
    then protocol.FInt (int_round (fmul_int 1000 elapsed))
    else protocol.FFloat elapsed in
  let units := if TimerHelper.use_ms self then u "ms" else u "s" in
  exists data,
    protocol.to_line_protocol
      (protocol.mkLine (TimerHelper.measurement_name self)
         (protocol.VScalar value)
         (<[u "units" := units]> (TimerHelper.tags self)) None)
    = Ret data /\
    TimerHelper._send self start_time w
    = ClientBase.call_send (TimerHelper.client self) data (time w).2.
Proof.
  intros Hname elapsed value units.
  destruct (to_line_protocol_named (TimerHelper.measurement_name self)
              (protocol.VScalar value)
              (<[u "units" := units]> (TimerHelper.tags self)) None Hname)
    as [data Hdata].
  exists data. split; [exact Hdata|].
  unfold TimerHelper._send, bind, time. simpl.
  subst value units elapsed.
  destruct (TimerHelper.use_ms self); unfold lift; rewrite Hdata;
    reflexivity.
Qed.

Lemma send_reports_once (self : TimerHelper.t F T) (start_time : F)
    (w : world F T) :
  bool_of_name (TimerHelper.measurement_name self) = true ->
  exists data,
    calls (TimerHelper._send self start_time w).2 = calls w ++ [data].
Proof.
  intros Hname.
  destruct (send_report self start_time w Hname) as (data & _ & Hsend).
  exists data. rewrite Hsend, calls_call_send. reflexivity.
Qed.

(** C3.  A report of a named timer reads the clock once and hands to the
    client's [send] one line: its value is the reading minus the start
    time, as the integer [int(round(1000 * elapsed))] under [use_ms] and as
    the float itself otherwise; its tags are the timer's tags with [units]
    set to [ms] or [s], whatever the timer had under that key. *)
Theorem timer_send_reports_elapsed (self : TimerHelper.t F T)
    (start_time : F) (w : world F T) :
  bool_of_name (TimerHelper.measurement_name self) = true ->
  let elapsed := fsub (clock w (tick w)) start_time in
  let value :=
    if TimerHelper.use_ms self
    then protocol.FInt (int_round (fmul_int 1000 elapsed))
    else protocol.FFloat elapsed in
  let units := if TimerHelper.use_ms self then u "ms" else u "s" in
  exists (tags : gmap pystr pystr) (data : pystr),
    tags !! u "units" = Some units /\
    (forall k : pystr,
       k <> u "units" -> tags !! k = TimerHelper.tags self !! k) /\
    protocol.to_line_protocol
      (protocol.mkLine (TimerHelper.measurement_name self)
         (protocol.VScalar value) tags None)
    = Ret data /\
    TimerHelper._send self start_time w
    = ClientBase.call_send (TimerHelper.client self) data (time w).2 /\
    calls (TimerHelper._send self start_time w).2 = calls w ++ [data].
Proof.
  intros Hname elapsed value units.
  destruct (send_report self start_time w Hname) as (data & Hdata & Hsend).
  exists (<[u "units" := units]> (TimerHelper.tags self)), data.
  split; [apply lookup_insert_eq|].
  split; [intros k Hk; apply lookup_insert_ne; congruence|].
  split; [exact Hdata|]. split; [exact Hsend|].
  rewrite Hsend, calls_call_send. reflexivity.
Qed.

(** The name a timer has once it decorated a function. *)
Lemma call_names_timer (py35 : bool) (self self' : TimerHelper.t F T)
    (func : pyfunc F T A V) (r : outcome (pyfunc F T A V)) :
  TimerHelper.__call__ py35 self func = (self', r) ->
  bool_of_name (TimerHelper.measurement_name self') = true.
Proof.
  unfold TimerHelper.__call__.
  destruct (bool_of_name (TimerHelper.measurement_name self)) eqn:Hname;
    simpl; destruct (iscoroutinefunction py35 func);
    intros [= <- _]; simpl; try exact Hname;
    destruct (__module__ func); reflexivity.
Qed.

(** Both wrappers have the same body: read the clock, run the function,
    report in the [finally] clause. *)
Lemma call_wrapper_body (py35 : bool) (self self' : TimerHelper.t F T)
    (func wr : pyfunc F T A V) (args : A) :
  TimerHelper.__call__ py35 self func = (self', Ret wr) ->
  call wr args =
  (start <~ time ;;
   try_finally (call func args) (TimerHelper._send self' start)).
Proof.
  unfold TimerHelper.__call__, iscoroutinefunction, wrapped_coroutine.
  destruct py35; [destruct (is_async func)|];
    intros [= <- <-]; reflexivity.
Qed.

(** What entering a named timer gives. *)
Lemma enter_named (self mgr : TimerHelper.t F T) (w w1 : world F T) :
  TimerHelper.__enter__ self w = (Ret mgr, w1) ->
  bool_of_name (TimerHelper.measurement_name mgr) = true /\
  TimerHelper.start_time mgr = Some (clock w (tick w)) /\
  w1 = (time w).2.
Proof.
  unfold TimerHelper.__enter__.
  destruct (bool_of_name (TimerHelper.measurement_name self)) eqn:Hname;
    simpl; [|discriminate].
  unfold bind, time, ret. intros [= <- <-]. simpl. auto.
Qed.

(** C4.  A wrapper made by the decorator, for a plain function or for an
    asynchronous one, hands exactly one payload to [send] after the wrapped
    function ended, whether it returned or raised; and so does a [with]
    block that was entered, after its body ended either way. *)
Theorem timer_reports_on_every_exit :
  (forall (py35 : bool) (self self' : TimerHelper.t F T)
          (func wr : pyfunc F T A V) (args : A) (w : world F T),
     TimerHelper.__call__ py35 self func = (self', Ret wr) ->
     exists data,
       calls (call wr args w).2
       = calls (call func args (time w).2).2 ++ [data]) /\
  (forall (self mgr : TimerHelper.t F T)
          (body : TimerHelper.t F T -> SE (world F T) unit)
          (w w1 : world F T),
     TimerHelper.__enter__ self w = (Ret mgr, w1) ->
     exists data,
       calls (TimerHelper.with_timer self body w).2
       = calls (body mgr w1).2 ++ [data]).
Proof.
  split.
  - intros py35 self self' func wr args w Hcall.
    pose proof (call_names_timer _ _ _ _ _ Hcall) as Hname.
    rewrite (call_wrapper_body _ _ _ _ _ args Hcall).
    unfold bind, try_finally. simpl.
    destruct (call func args (time w).2) as [r w1] eqn:Hfunc.
    change (World (S (tick w)) (clock w) (calls w) (transport w))
      with (time w).2.
    rewrite Hfunc.
    destruct (send_reports_once self' (clock w (tick w)) w1 Hname)
      as [data Hdata].
    exists data. simpl.
    destruct (TimerHelper._send self' (clock w (tick w)) w1)
      as [[[]|e] w2]; exact Hdata.
  - intros self mgr body w w1 Henter.
    destruct (enter_named _ _ _ _ Henter) as (Hname & Hstart & _).
    unfold TimerHelper.with_timer, with_stmt. rewrite Henter.
    destruct (send_reports_once mgr (clock w (tick w)) (body mgr w1).2 Hname)
      as [data Hdata].
    exists data.
    destruct (body mgr w1) as [[[]|e] w2]; simpl in *;
      unfold TimerHelper.__exit__; rewrite Hstart;
      destruct (TimerHelper._send mgr (clock w (tick w)) w2)
        as [[[]|e'] w3]; exact Hdata.
Qed.

(** C5.  Entering a timer whose name is [None] or empty raises
    [TypeError("No metric name specified.")], the error the specification
    calls MissingMetricNameError, before the clock is read and before the
    body of the block runs; entering a named timer returns the timer with
    the clock's reading as its start time. *)
Theorem enter_requires_name (self : TimerHelper.t F T) (w : world F T) :
  (bool_of_name (TimerHelper.measurement_name self) = false ->
   TimerHelper.__enter__ self w
   = (Raise (Exn TypeError (u "No metric name specified.")), w) /\
   forall body : TimerHelper.t F T -> SE (world F T) unit,
     TimerHelper.with_timer self body w
     = (Raise (Exn TypeError (u "No metric name specified.")), w)) /\
  (bool_of_name (TimerHelper.measurement_name self) = true ->
   TimerHelper.__enter__ self w
   = (Ret (TimerHelper.mk (TimerHelper.client self)
             (TimerHelper.measurement_name self) (TimerHelper.tags self)
             (TimerHelper.use_ms self) (Some (clock w (tick w)))),
      (time w).2)).
Proof.
  split; intros Hname.
  - assert (Henter : TimerHelper.__enter__ self w
      = (Raise (Exn TypeError (u "No metric name specified.")), w)).
    { unfold TimerHelper.__enter__. rewrite Hname. reflexivity. }
    split; [exact Henter|].
    intros body. unfold TimerHelper.with_timer, with_stmt.
    rewrite Henter. reflexivity.
  - unfold TimerHelper.__enter__. rewrite Hname. reflexivity.
Qed.

(** C8, as the code has it.  Below Python 3.5 the decorator raises for no
    function: it answers every function, an asynchronous one included,
    with the plain wrapper, since the stub [iscoroutinefunction] says
    [False] and the fallback [wrapped_coroutine] is never reached. *)
Theorem call_below_py35_wraps_synchronously (self : TimerHelper.t F T)
    (func : pyfunc F T A V) :
  is_async func = true ->
  exists self',
    TimerHelper.__call__ false self func
    = (self', Ret (TimerHelper.wrapped self' func)) /\
    is_async (TimerHelper.wrapped self' func) = false /\
    wrapped_coroutine false (@TimerHelper._send F _ T) self' func
    = Raise (Exn NotImplementedError
               (u "Async timer decorator requires Python 3.5 or higher.")).
Proof.
  intros _. unfold TimerHelper.__call__. simpl. eauto.
Qed.

(** C10.  When the body of an entered [with] block raises, the block never
    ends normally: [__exit__] first hands the report to [send] and, having
    no [return], gives back [None], which is false; the exception of the
    body then goes on to the caller, unless [send] itself raised, in which
    case that exception goes on instead. *)
Theorem exit_never_suppresses (self mgr : TimerHelper.t F T)
    (body : TimerHelper.t F T -> SE (world F T) unit)
    (w w1 w2 : world F T) (e : exn) :
  TimerHelper.__enter__ self w = (Ret mgr, w1) ->
  body mgr w1 = (Raise e, w2) ->
  exists (data : pystr) (r : outcome unit) (w3 : world F T),
    TimerHelper.__exit__ mgr (Some e) w2 = (r, w3) /\
    ClientBase.call_send (TimerHelper.client mgr) data (time w2).2 = (r, w3) /\
    calls w3 = calls w2 ++ [data] /\
    TimerHelper.with_timer self body w
    = (match r with
       | Ret none => if bool_of_None none then Ret tt else Raise e
       | Raise e' => Raise e'
       end, w3) /\
    (r = Ret tt -> TimerHelper.with_timer self body w = (Raise e, w3)) /\
    (TimerHelper.with_timer self body w).1 <> Ret tt.
Proof.
  intros Henter Hbody.
  destruct (enter_named _ _ _ _ Henter) as (Hname & Hstart & _).
  destruct (send_report mgr (clock w (tick w)) w2 Hname)
    as (data & _ & Hsend).
  destruct (ClientBase.call_send (TimerHelper.client mgr) data (time w2).2)
    as [r w3] eqn:Hcs.
  assert (Hexit : TimerHelper.__exit__ mgr (Some e) w2 = (r, w3)).
  { unfold TimerHelper.__exit__. rewrite Hstart. exact Hsend. }
  assert (Hwith : TimerHelper.with_timer self body w
    = (match r with
       | Ret none => if bool_of_None none then Ret tt else Raise e
       | Raise e' => Raise e'
       end, w3)).
  { unfold TimerHelper.with_timer, with_stmt.
    rewrite Henter, Hbody, Hexit. destruct r; reflexivity. }
  exists data, r, w3. split; [exact Hexit|]. split; [exact Hcs|].
  split.
  { pose proof (calls_call_send (TimerHelper.client mgr) data (time w2).2)
      as Hcalls. rewrite Hcs in Hcalls. exact Hcalls. }
  split; [exact Hwith|]. split.
  - intros ->. exact Hwith.
  - rewrite Hwith. destruct r as [[]|e']; simpl; discriminate.
Qed.

End Timer.

End Properties.

(** ** Properties of the transports and of the encoder *)

Section Transports.
Context {F : Type} `{PyFloat F}.

(** The codec is defined on every string of scalar values, and leaves an
    ASCII string as it is. *)
Lemma utf8_char_scalar (c : Z) : scalar_value c -> is_Some (utf8_char c).
Proof.
  intros [Hrange Hsurrogate]. unfold utf8_char.
  repeat (case_match; try (eexists; reflexivity)); exfalso; lia.
Qed.

Lemma utf8_scalar (s : pystr) : Forall scalar_value s -> is_Some (utf8 s).
Proof.
  induction 1 as [|c s Hc _ [bs IH]]; simpl.
  - eexists; reflexivity.
  - destruct (utf8_char_scalar c Hc) as [b ->]. rewrite IH.
    eexists; reflexivity.
Qed.

Lemma utf8_ascii (s : pystr) :
  Forall (fun c => 0 <= c < 0x80) s -> utf8 s = Some s.
Proof.
  induction 1 as [|c s Hc _ IH]; simpl; [reflexivity|].
  unfold utf8_char. rewrite IH.
  destruct (c <? 0) eqn:Hneg; [lia|].
  destruct (c <? 128) eqn:Hlow; [reflexivity|lia].
Qed.

Lemma caught_socket_error (e : exn) :
  caught_by e [socket_error; RuntimeError] = false ->
  isinstance e socket_error = false.
Proof.
  unfold caught_by. simpl. intros Hcaught.
  apply orb_false_iff in Hcaught. tauto.
Qed.

(** An exception that leaves the UDP [send] is no socket error. *)
Lemma udp_send_raises (host : pystr) (port : Z) (data : pystr)
    (s s' : TelegrafClient.socket) (e : exn) :
  TelegrafClient.send host port data s = (Raise e, s') ->
  isinstance e socket_error = false.
Proof.
  unfold TelegrafClient.send, try_except, bind, lift,
    TelegrafClient.encode_utf8, TelegrafClient.sendto, ret.
  destruct (utf8 data) as [encoded|].
  - destruct (TelegrafClient.fault s _) as [e0|]; [|discriminate].
    destruct (caught_by e0 [socket_error; RuntimeError]) eqn:Hcaught;
      [discriminate|].
    intros [= <- _]. apply caught_socket_error, Hcaught.
  - simpl. intros [= <- _]. reflexivity.
Qed.

(** C6.  When the operating system answers the datagram with a socket
    error (or a [RuntimeError]), the UDP [send] returns [None] like a call
    that went well; an exception that does leave [send], or [metric] on a
    UDP client, is never a socket error. *)
Theorem udp_send_swallows_socket_errors (host : pystr) (port : Z)
    (data : pystr) (s : TelegrafClient.socket) :
  (forall (encoded : pybytes) (e : exn),
     utf8 data = Some encoded ->
     TelegrafClient.fault s (length (TelegrafClient.sendto_calls s)) = Some e ->
     isinstance e socket_error = true \/ isinstance e RuntimeError = true ->
     TelegrafClient.send host port data s
     = (Ret tt,
        TelegrafClient.Socket
          (TelegrafClient.sendto_calls s ++ [(encoded ++ [10], (host, port))])
          (TelegrafClient.fault s))) /\
  (forall (e : exn) (s' : TelegrafClient.socket),
     TelegrafClient.send host port data s = (Raise e, s') ->
     isinstance e socket_error = false) /\
  (forall (default_tags tags : option (gmap pystr pystr))
          (measurement_name : option pystr) (values : protocol.pyvalues F)
          (timestamp : option Z) (w w' : world F TelegrafClient.socket)
          (e : exn),
     ClientBase.metric (TelegrafClient.__init__ host port default_tags)
       measurement_name values tags timestamp w = (Raise e, w') ->
     isinstance e socket_error = false).
Proof.
  split; [|split].
  - intros encoded e Hutf8 Hfault Hclass.
    unfold TelegrafClient.send, try_except, bind, lift,
      TelegrafClient.encode_utf8, TelegrafClient.sendto, ret.
    rewrite Hutf8, Hfault.
    assert (Hcaught : caught_by e [socket_error; RuntimeError] = true).
    { unfold caught_by. simpl. destruct Hclass as [-> | ->];
        rewrite ?orb_true_r; reflexivity. }
    rewrite Hcaught. reflexivity.
  - intros e s'. apply udp_send_raises.
  - intros default_tags tags name values timestamp w w' e.
    unfold ClientBase.metric.
    destruct (negb (bool_of_name name) || ClientBase.in_None_or_empty values);
      [discriminate|].
    unfold bind, lift.
    destruct (protocol.to_line_protocol _) as [line|e0] eqn:Hline.
    + unfold ClientBase.call_send. simpl.
      destruct (TelegrafClient.send host port line (transport w))
        as [[[]|e1] s1] eqn:Hsend; [discriminate|].
      intros [= <- _]. eapply udp_send_raises, Hsend.
    + unfold protocol.to_line_protocol in Hline. simpl in Hline.
      destruct name as [[|c n]|]; try discriminate;
        injection Hline as <-; intros [= <- _]; reflexivity.
Qed.

(** C7.  The UDP [send] makes one [sendto] call, whose datagram is the
    UTF-8 encoding of the line followed by one newline byte; the HTTP
    [send] queues one POST whose body is the line itself, nothing added. *)
Theorem transports_frame_the_line (host : pystr) (port : Z) (data : pystr) :
  (forall (s : TelegrafClient.socket) (encoded : pybytes),
     utf8 data = Some encoded ->
     TelegrafClient.sendto_calls (TelegrafClient.send host port data s).2
     = TelegrafClient.sendto_calls s ++ [(encoded ++ [10], (host, port))]) /\
  (forall s : HttpClient.session,
     HttpClient.send host port data s
     = (Ret tt,
        HttpClient.Session
          (HttpClient.posts s ++ [(HttpClient.url host port, data)]))).
Proof.
  split.
  - intros s encoded Hutf8.
    unfold TelegrafClient.send, try_except, bind, lift,
      TelegrafClient.encode_utf8, TelegrafClient.sendto, ret.
    rewrite Hutf8.
    destruct (TelegrafClient.fault s _) as [e|]; [|reflexivity].
    destruct (caught_by e [socket_error; RuntimeError]); reflexivity.
  - intros s. reflexivity.
Qed.


End Transports.

(** ** The properties at concrete inputs *)

Section Instances.
Import examples.

Example utf8_samples :
  utf8 [65; 233; 0x20AC; 0x1F600]
  = Some [65; 195; 169; 226; 130; 172; 240; 159; 152; 128] /\
  utf8 [0xD800] = None.
Proof. split; reflexivity. Qed.

Lemma metric_empty_is_noop_witness :
  ClientBase.metric udp_client (Some (u "cpu")) (protocol.VDict ∅)
    None None (world0 quiet_socket)
  = (Ret tt, world0 quiet_socket) /\
  ClientBase.metric udp_client (Some []) (protocol.VScalar (protocol.FInt 1))
    None None (world0 quiet_socket)
  = (Ret tt, world0 quiet_socket).
Proof.
  split.
  - apply (metric_empty_is_noop (F:=Z)). right; right; right; reflexivity.
  - apply (metric_empty_is_noop (F:=Z)). right; left; reflexivity.
Defined.


Lemma timer_send_reports_elapsed_witness :
  exists (tags : gmap pystr pystr) (data : pystr),
    tags !! u "units" = Some (u "ms") /\
    protocol.to_line_protocol
      (protocol.mkLine (Some (u "job"))
         (protocol.VScalar (protocol.FInt 10000)) tags None)
    = Ret data /\
    calls (TimerHelper._send job_timer 90 (world0 quiet_socket)).2 = [data].
Proof.
  destruct (timer_send_reports_elapsed job_timer 90 (world0 quiet_socket)
              eq_refl) as (tags & data & Hunits & _ & Hdata & _ & Hcalls).
  exists tags, data. auto.
Defined.

Lemma timer_reports_on_every_exit_witness :
  (exists data,
     calls (call (TimerHelper.wrapped job_timer failing) 7
              (world0 quiet_socket)).2
     = calls (call failing 7 (time (world0 quiet_socket)).2).2 ++ [data]) /\
  (exists data,
     calls (call (context.wrapped_coroutine TimerHelper._send job_timer fetch)
              7 (world0 quiet_socket)).2
     = calls (call fetch 7 (time (world0 quiet_socket)).2).2 ++ [data]) /\
  (exists data,
     calls (TimerHelper.with_timer job_timer failing_body
              (world0 quiet_socket)).2
     = calls (failing_body
                (TimerHelper.mk udp_client (Some (u "job"))
                   {[u "units" := u "hours"]} true (Some 100))
                (time (world0 quiet_socket)).2).2 ++ [data]).
Proof.
  destruct (timer_reports_on_every_exit (F:=Z) (T:=TelegrafClient.socket) (A:=Z) (V:=Z))
    as [Hdecorated Hblock].
  split; [|split].
  - apply (Hdecorated true job_timer job_timer failing). reflexivity.
  - apply (Hdecorated true job_timer job_timer fetch). reflexivity.
  - apply (Hblock job_timer). reflexivity.
Defined.

Lemma enter_requires_name_witness :
  TimerHelper.__enter__ unnamed_timer (world0 quiet_socket)
  = (Raise (Exn TypeError (u "No metric name specified.")),
     world0 quiet_socket) /\
  TimerHelper.__enter__ job_timer (world0 quiet_socket)
  = (Ret (TimerHelper.mk udp_client (Some (u "job"))
            {[u "units" := u "hours"]} true (Some 100)),
     (time (world0 quiet_socket)).2).
Proof.
  split.
  - apply (enter_requires_name unnamed_timer (world0 quiet_socket)).
    reflexivity.
  - apply (enter_requires_name job_timer (world0 quiet_socket)).
    reflexivity.
Defined.

Lemma call_below_py35_wraps_synchronously_witness :
  exists self',
    TimerHelper.__call__ false unnamed_timer fetch
    = (self', Ret (TimerHelper.wrapped self' fetch)) /\
    TimerHelper.measurement_name self' = Some (u "app.fetch").
Proof.
  destruct (call_below_py35_wraps_synchronously (F:=Z) (T:=TelegrafClient.socket)
              unnamed_timer fetch eq_refl) as (self' & Hcall & _).
  exists self'. split; [exact Hcall|].
  injection Hcall as <- _. reflexivity.
Defined.

Lemma exit_never_suppresses_witness :
  exists w3,
    TimerHelper.with_timer http_timer failing_body
      (world0 (HttpClient.Session []))
    = (Raise (Exn (UserError 0) (u "boom")), w3).
Proof.
  destruct (exit_never_suppresses (F:=Z) http_timer
              (TimerHelper.mk http_client (Some (u "job")) ∅ false (Some 100))
              failing_body (world0 (HttpClient.Session []))
              (time (world0 (HttpClient.Session []))).2
              (time (world0 (HttpClient.Session []))).2
              (Exn (UserError 0) (u "boom")) eq_refl eq_refl)
    as (data & r & w3 & _ & Hsend & _ & _ & Hsame & _).
  exists w3. apply Hsame.
  unfold ClientBase.call_send in Hsend. simpl in Hsend. congruence.
Defined.

Lemma udp_send_swallows_socket_errors_witness :
  TelegrafClient.send (u "localhost") 8094 (u "cpu value=1i") refusing_socket
  = (Ret tt,
     TelegrafClient.Socket
       [(u "cpu value=1i" ++ [10], (u "localhost", 8094))]
       (TelegrafClient.fault refusing_socket)) /\
  isinstance (Exn UnicodeEncodeError
                (u "'utf-8' codec can't encode: surrogates not allowed"))
    socket_error = false.
Proof.
  destruct (udp_send_swallows_socket_errors (F:=Z) (u "localhost") 8094
              (u "cpu value=1i") refusing_socket) as (Hswallow & _ & _).
  destruct (udp_send_swallows_socket_errors (F:=Z) (u "localhost") 8094
              [0xD800] quiet_socket) as (_ & Hescape & _).
  split.
  - apply (Hswallow (u "cpu value=1i") (Exn socket_error (u "Connection refused")));
      [reflexivity | reflexivity | left; reflexivity].
  - apply (Hescape _ quiet_socket). reflexivity.
Defined.

Lemma transports_frame_the_line_witness :
  TelegrafClient.sendto_calls
    (TelegrafClient.send (u "localhost") 8094 [99; 233] quiet_socket).2
  = [([99; 195; 169; 10], (u "localhost", 8094))].
Proof.
  destruct (transports_frame_the_line (u "localhost") 8094 [99; 233])
    as [Hudp _].
  apply (Hudp quiet_socket [99; 195; 169]). reflexivity.
Defined.

End Instances.

(** ** Further properties of the timer *)

Section TimerMore.
Context {F : Type} `{PyFloat F} {T A V : Type}.

(** What decorating leaves of the timer: everything but, at most, the
    name. *)
Lemma call_timer_fields (py35 : bool) (self self' : TimerHelper.t F T)
    (func : pyfunc F T A V) (r : outcome (pyfunc F T A V)) :
  TimerHelper.__call__ py35 self func = (self', r) ->
  TimerHelper.client self' = TimerHelper.client self /\
  TimerHelper.tags self' = TimerHelper.tags self /\
  TimerHelper.use_ms self' = TimerHelper.use_ms self /\
  TimerHelper.measurement_name self' =
    if bool_of_name (TimerHelper.measurement_name self)
    then TimerHelper.measurement_name self
    else Some (__module__ func ++ u "." ++ __name__ func).
Proof.
  unfold TimerHelper.__call__.
  destruct (bool_of_name (TimerHelper.measurement_name self));
    simpl; destruct (iscoroutinefunction py35 func);
    intros [= <- _]; simpl; auto.
Qed.

(** The report a wrapper makes once the function has ended in the world
    [after]. *)
Lemma wrapper_report (py35 : bool) (self self' : TimerHelper.t F T)
    (func wr : pyfunc F T A V) (args : A) (w : world F T) :
  TimerHelper.__call__ py35 self func = (self', Ret wr) ->
  let ended := call func args (time w).2 in
  let elapsed := fsub (clock ended.2 (tick ended.2)) (clock w (tick w)) in
  let value :=
    if TimerHelper.use_ms self
    then protocol.FInt (int_round (fmul_int 1000 elapsed))
    else protocol.FFloat elapsed in
  let units := if TimerHelper.use_ms self then u "ms" else u "s" in
  exists (data : pystr) (r : outcome unit) (w' : world F T),
    protocol.to_line_protocol
      (protocol.mkLine (TimerHelper.measurement_name self')
         (protocol.VScalar value)
         (<[u "units" := units]> (TimerHelper.tags self)) None)
    = Ret data /\
    ClientBase.call_send (TimerHelper.client self) data (time ended.2).2
    = (r, w') /\
    call wr args w
    = (match r with
       | Ret _ => ended.1
       | Raise e => Raise e
       end, w').
Proof.
  intros Hcall ended elapsed value units.
  pose proof (call_names_timer _ _ _ _ _ Hcall) as Hname.
  destruct (call_timer_fields _ _ _ _ _ Hcall)
    as (Hclient & Htags & Hms & _).
  destruct (send_report self' (clock w (tick w)) ended.2 Hname)
    as (data & Hdata & Hsend).
  rewrite Htags, Hms, Hclient in *.
  destruct (ClientBase.call_send (TimerHelper.client self) data
              (time ended.2).2) as [r w'] eqn:Hcs.
  exists data, r, w'. split; [exact Hdata|]. split; [exact Hcs|].
  rewrite (call_wrapper_body _ _ _ _ _ args Hcall).
  unfold bind, try_finally. simpl.
  change (World (S (tick w)) (clock w) (calls w) (transport w))
    with (time w).2.
  fold ended. destruct ended as [rf w1]. simpl in *.
  rewrite Hsend. destruct r as [[]|e]; reflexivity.
Qed.

(** X1.  The payload a decorated function reports is the line of the
    timer's name, or of [module.name] of the function when the timer had
    none, with the clock's reading after the function minus the reading
    taken just before it, and the timer's tags with [units] set. *)
Theorem decorator_reports_elapsed_of_call (py35 : bool)
    (self self' : TimerHelper.t F T) (func wr : pyfunc F T A V)
    (args : A) (w : world F T) :
  TimerHelper.__call__ py35 self func = (self', Ret wr) ->
  let name :=
    if bool_of_name (TimerHelper.measurement_name self)
    then TimerHelper.measurement_name self
    else Some (__module__ func ++ u "." ++ __name__ func) in
  let ended := (call func args (time w).2).2 in
  let elapsed := fsub (clock ended (tick ended)) (clock w (tick w)) in
  let value :=
    if TimerHelper.use_ms self
    then protocol.FInt (int_round (fmul_int 1000 elapsed))
    else protocol.FFloat elapsed in
  let units := if TimerHelper.use_ms self then u "ms" else u "s" in
  exists data : pystr,
    protocol.to_line_protocol
      (protocol.mkLine name (protocol.VScalar value)
         (<[u "units" := units]> (TimerHelper.tags self)) None)
    = Ret data /\
    calls (call wr args w).2 = calls ended ++ [data].
Proof.
  intros Hcall name ended elapsed value units.
  destruct (wrapper_report _ _ _ _ _ args w Hcall)
    as (data & r & w' & Hdata & Hcs & Hwr).
  destruct (call_timer_fields _ _ _ _ _ Hcall) as (_ & _ & _ & Hname).
  exists data. split.
  - subst name. rewrite <- Hname. exact Hdata.
  - rewrite Hwr. simpl.
    pose proof (calls_call_send (TimerHelper.client self) data
                  (time (call func args (time w).2).2).2) as Hcalls.
    rewrite Hcs in Hcalls. exact Hcalls.
Qed.

(** X2.  A timer without a name that decorates [f] and then [g] keeps
    the name it took from [f]: the second decoration does not rename it,
    so the times of [g] are reported under [f]'s name. *)
Theorem timer_reused_keeps_first_name (py35 : bool)
    (self : TimerHelper.t F T) (f g : pyfunc F T A V) :
  bool_of_name (TimerHelper.measurement_name self) = false ->
  TimerHelper.measurement_name
    (TimerHelper.__call__ py35 (TimerHelper.__call__ py35 self f).1 g).1
  = Some (__module__ f ++ u "." ++ __name__ f).
Proof.
  intros Hunnamed.
  destruct (TimerHelper.__call__ py35 self f) as [self1 r1] eqn:Hf.
  cbn [fst].
  destruct (TimerHelper.__call__ py35 self1 g) as [self2 r2] eqn:Hg.
  pose proof (call_names_timer _ _ _ _ _ Hf) as Hnamed.
  destruct (call_timer_fields _ _ _ _ _ Hf) as (_ & _ & _ & Hname1).
  destruct (call_timer_fields _ _ _ _ _ Hg) as (_ & _ & _ & Hname2).
  simpl. rewrite Hname2, Hnamed, Hname1, Hunnamed. reflexivity.
Qed.

(** X3.  A decorated function is called with the arguments of the
    wrapper and ends as the function ends, with its value or its
    exception, whenever the client's [send] returns; an exception of
    [send] in the [finally] clause replaces that outcome, a returned value
    included. *)
Theorem decorator_is_transparent (py35 : bool)
    (self self' : TimerHelper.t F T) (func wr : pyfunc F T A V)
    (args : A) (w : world F T) :
  TimerHelper.__call__ py35 self func = (self', Ret wr) ->
  (exists (data : pystr) (r : outcome unit) (w' : world F T),
     ClientBase.call_send (TimerHelper.client self) data
       (time (call func args (time w).2).2).2 = (r, w') /\
     call wr args w
     = (match r with
        | Ret _ => (call func args (time w).2).1
        | Raise e => Raise e
        end, w')) /\
  ((forall (data : pystr) (tr : T),
      (ClientBase.send (TimerHelper.client self) data tr).1 = Ret tt) ->
   (call wr args w).1 = (call func args (time w).2).1).
Proof.
  intros Hcall.
  destruct (wrapper_report _ _ _ _ _ args w Hcall)
    as (data & r & w' & _ & Hcs & Hwr).
  split.
  - exists data, r, w'. split; [exact Hcs|exact Hwr].
  - intros Hquiet. rewrite Hwr. simpl.
    unfold ClientBase.call_send in Hcs.
    specialize (Hquiet data
      (transport (time (call func args (time w).2).2).2)).
    destruct (ClientBase.send (TimerHelper.client self) data _)
      as [r0 tr]. simpl in Hquiet. subst r0.
    injection Hcs as <- _. reflexivity.
Qed.




(** X5.  Decorating never raises, on any Python: it always gives a
    wrapper, which carries the module and the name of the function it
    wraps and is an asynchronous function exactly when the function is one
    and the Python is 3.5 or higher. *)
Theorem decorator_always_wraps (py35 : bool) (self : TimerHelper.t F T)
    (func : pyfunc F T A V) :
  exists wr : pyfunc F T A V,
    (TimerHelper.__call__ py35 self func).2 = Ret wr /\
    __module__ wr = __module__ func /\
    __name__ wr = __name__ func /\
    is_async wr = py35 && is_async func.
Proof.
  unfold TimerHelper.__call__, iscoroutinefunction, wrapped_coroutine.
  destruct py35; [destruct (is_async func) eqn:Hasync|];
    simpl; eexists; (split; [reflexivity|]); simpl; auto.
Qed.



(** X7.  A timer's report does not carry the default tags of its client:
    two clients that differ only in their default tags get the same
    payload from the same timer, and the same outcome. *)
Theorem timer_report_ignores_client_tags (host : pystr) (port : Z)
    (tags1 tags2 : gmap pystr pystr) (send : pystr -> SE T unit)
    (measurement_name : option pystr) (tags : gmap pystr pystr)
    (use_ms : bool) (start : option F) (start_time : F) (w : world F T) :
  TimerHelper._send
    (TimerHelper.mk (ClientBase.mk host port tags1 send) measurement_name
       tags use_ms start) start_time w
  = TimerHelper._send
      (TimerHelper.mk (ClientBase.mk host port tags2 send) measurement_name
         tags use_ms start) start_time w.
Proof.
  unfold TimerHelper._send, bind, time. simpl.
  destruct use_ms; unfold lift;
    destruct (protocol.to_line_protocol _); reflexivity.
Qed.

(** X8.  A timer that was entered can be entered again: [__enter__] does
    not look at the start time of an earlier block but overwrites it, so a
    second [with] block on the same timer runs as the first would. *)
Theorem entered_timer_is_reusable (self mgr : TimerHelper.t F T)
    (body : TimerHelper.t F T -> SE (world F T) unit)
    (w w1 w' : world F T) :
  TimerHelper.__enter__ self w = (Ret mgr, w1) ->
  TimerHelper.__enter__ mgr w' = TimerHelper.__enter__ self w' /\
  TimerHelper.with_timer mgr body w' = TimerHelper.with_timer self body w'.
Proof.
  intros Henter.
  assert (Hsame : TimerHelper.__enter__ mgr w'
                  = TimerHelper.__enter__ self w').
  { revert Henter. unfold TimerHelper.__enter__.
    destruct (bool_of_name (TimerHelper.measurement_name self)) eqn:Hname;
      simpl; [|discriminate].
    unfold bind, time, ret. intros [= <- _]. simpl. rewrite Hname.
    reflexivity. }
  split; [exact Hsame|].
  unfold TimerHelper.with_timer, with_stmt. rewrite Hsame. reflexivity.
Qed.

(** X9.  [__exit__] on a timer that was never entered, as [timer] and the
    decorator leave it, raises [AttributeError] for the missing
    [start_time]; nothing is reported and the clock is not read. *)
Theorem exit_before_enter_raises (py35 : bool) (client : ClientBase.t T)
    (measurement_name : option pystr) (tags : option (gmap pystr pystr))
    (use_ms : bool) (func : pyfunc F T A V) (exc : option exn)
    (w : world F T) :
  let fresh := timer client measurement_name tags use_ms in
  (exists msg,
     TimerHelper.__exit__ fresh exc w = (Raise (Exn AttributeError msg), w)) /\
  (exists msg,
     TimerHelper.__exit__ (TimerHelper.__call__ py35 fresh func).1 exc w
     = (Raise (Exn AttributeError msg), w)).
Proof.
  intros fresh. split.
  - eexists. reflexivity.
  - unfold TimerHelper.__call__, fresh, timer, TimerHelper.__init__.
    simpl. destruct (bool_of_name measurement_name);
      destruct (iscoroutinefunction py35 func); eexists; reflexivity.
Qed.

(** X17.  A timer that decorated a function has a name, its own or the
    function's, so it can then be entered as a [with] block on any Python:
    [__enter__] returns it with the clock's reading as start time. *)
Theorem decorated_timer_can_be_entered (py35 : bool)
    (self : TimerHelper.t F T) (func : pyfunc F T A V) (w : world F T) :
  exists mgr : TimerHelper.t F T,
    TimerHelper.__enter__ (TimerHelper.__call__ py35 self func).1 w
    = (Ret mgr, (time w).2) /\
    TimerHelper.start_time mgr = Some (clock w (tick w)) /\
    TimerHelper.measurement_name mgr
    = if bool_of_name (TimerHelper.measurement_name self)
      then TimerHelper.measurement_name self
      else Some (__module__ func ++ u "." ++ __name__ func).
Proof.
  destruct (TimerHelper.__call__ py35 self func) as [self' r] eqn:Hcall.
  pose proof (call_names_timer _ _ _ _ _ Hcall) as Hname.
  destruct (call_timer_fields _ _ _ _ _ Hcall) as (_ & _ & _ & Hfields).
  simpl. unfold TimerHelper.__enter__. rewrite Hname. simpl.
  eexists. split; [reflexivity|]. simpl. split; [reflexivity|exact Hfields].
Qed.

End TimerMore.

(** ** Further properties of [metric] and of the UDP transport *)

Section TransportMore.
Context {F : Type} `{PyFloat F}.

(** X10.  [metric] hands at most one payload to [send], and none exactly
    when the name is [None] or empty or the values are [None] or the empty
    dict: a scalar that is false in Python ([0], [False], the empty
    string) is sent like any other. *)
Theorem metric_silent_iff_empty {T : Type} (self : ClientBase.t T)
    (measurement_name : option pystr) (values : protocol.pyvalues F)
    (tags : option (gmap pystr pystr)) (timestamp : option Z)
    (w : world F T) :
  exists sent : list pystr,
    calls (ClientBase.metric self measurement_name values tags timestamp w).2
    = calls w ++ sent /\
    (length sent <= 1)%nat /\
    (sent = [] <->
     measurement_name = None \/ measurement_name = Some [] \/
     values = protocol.VNone \/ values = protocol.VDict ∅).
Proof.
  unfold ClientBase.metric.
  destruct (bool_of_name measurement_name) eqn:Hname; simpl.
  - destruct (ClientBase.in_None_or_empty values) eqn:Hvalues.
    + exists []. rewrite app_nil_r. split; [reflexivity|].
      split; [simpl; lia|]. split; [intros _|reflexivity].
      destruct values as [|v|d]; simpl in Hvalues;
        [auto|discriminate|].
      apply bool_decide_eq_true_1 in Hvalues. subst d. auto.
    + destruct (to_line_protocol_named measurement_name values
                  (ClientBase.dict_merge (ClientBase.self_tags self)
                     (ClientBase.or_empty tags)) timestamp Hname)
        as [data Hdata].
      exists [data]. unfold bind, lift. rewrite Hdata.
      split; [apply calls_call_send|]. split; [simpl; lia|].
      split; [discriminate|].
      intros [-> | [-> | [-> | ->]]]; discriminate.
  - exists []. rewrite app_nil_r. split; [reflexivity|].
    split; [simpl; lia|]. split; [intros _|reflexivity].
    destruct measurement_name as [[|c n]|]; try discriminate; auto.
Qed.

(** One [sendto] call for a line that encodes. *)
Lemma udp_send_calls (host : pystr) (port : Z) (data : pystr)
    (encoded : pybytes) (s : TelegrafClient.socket) :
  utf8 data = Some encoded ->
  TelegrafClient.sendto_calls (TelegrafClient.send host port data s).2
  = TelegrafClient.sendto_calls s ++ [(encoded ++ [10], (host, port))] /\
  TelegrafClient.fault (TelegrafClient.send host port data s).2
  = TelegrafClient.fault s.
Proof.
  intros Hutf8.
  unfold TelegrafClient.send, try_except, bind, lift,
    TelegrafClient.encode_utf8, TelegrafClient.sendto, ret.
  rewrite Hutf8.
  destruct (TelegrafClient.fault s _) as [e|]; [|split; reflexivity].
  destruct (caught_by e [socket_error; RuntimeError]); split; reflexivity.
Qed.

(** The bytes of one encoded code point: a code point below 128 is its
    own byte, every byte of a longer sequence has its high bit set. *)
Lemma utf8_char_high_bit (c : Z) (b : pybytes) :
  utf8_char c = Some b ->
  b = [c] /\ 0 <= c < 0x80 \/ Forall (fun x => Z.testbit x 7 = true) b.
Proof.
  unfold utf8_char.
  destruct (c <? 0) eqn:Hneg; [discriminate|].
  destruct (c <? 128) eqn:Hlow.
  { intros [= <-]. left. split; [reflexivity|lia]. }
  intros Hb. right.
  repeat match type of Hb with
         | (if ?t then _ else _) = _ => destruct t
         end;
    try discriminate; injection Hb as <-;
    repeat (constructor; [rewrite Z.lor_spec; reflexivity|]);
    constructor.
Qed.

Lemma utf8_newline (s : pystr) (b : pybytes) :
  utf8 s = Some b -> 10 ∈ b -> 10 ∈ s.
Proof.
  revert b. induction s as [|c s IH]; simpl; intros b.
  - intros [= <-] Hin. exact Hin.
  - destruct (utf8_char c) as [bc|] eqn:Hc; [|discriminate].
    destruct (utf8 s) as [bs|]; [|discriminate].
    intros [= <-] Hin. apply elem_of_app in Hin as [Hin|Hin].
    + destruct (utf8_char_high_bit c bc Hc) as [[-> _]|Hhigh].
      * apply list_elem_of_singleton in Hin. subst c. left.
      * rewrite Forall_forall in Hhigh. apply Hhigh in Hin.
        discriminate.
    + right. apply (IH bs); [reflexivity|exact Hin].
Qed.

(** X11.  The datagram of a line without a newline character has exactly
    one newline byte, its last: no byte of a multi-byte UTF-8 sequence is a
    newline, so the collector sees one line per datagram. *)
Theorem udp_datagram_single_newline (host : pystr) (port : Z)
    (data : pystr) (encoded : pybytes) (s : TelegrafClient.socket) :
  utf8 data = Some encoded ->
  10 ∉ data ->
  TelegrafClient.sendto_calls (TelegrafClient.send host port data s).2
  = TelegrafClient.sendto_calls s ++ [(encoded ++ [10], (host, port))] /\
  10 ∉ encoded.
Proof.
  intros Hutf8 Hline. split.
  - apply udp_send_calls, Hutf8.
  - intros Hin. apply Hline. eapply utf8_newline; eassumption.
Qed.

Lemma lor_byte (k x : Z) :
  0 <= k -> 0 <= x -> 0 <= Z.lor k x <= k + x.
Proof.
  intros Hk Hx. split; [apply Z.lor_nonneg; auto|].
  pose proof (Z.add_lor_land k x) as Hsum.
  assert (0 <= Z.land k x) by (apply Z.land_nonneg; auto).
  lia.
Qed.

Lemma shiftr_below (c k n : Z) :
  0 <= c < 2 ^ k * n -> 0 <= k -> 0 <= Z.shiftr c k < n.
Proof.
  intros Hc Hk. rewrite Z.shiftr_div_pow2 by exact Hk.
  assert (0 < 2 ^ k) by (apply Z.pow_pos_nonneg; lia).
  split.
  - apply Z.div_pos; lia.
  - apply Z.div_lt_upper_bound; lia.
Qed.

Lemma land_low6 (x : Z) : 0 <= Z.land x 0x3F <= 63.
Proof.
  change (Z.land x 0x3F) with (Z.land x (Z.ones 6)).
  rewrite Z.land_ones by lia. change (2 ^ 6) with 64.
  pose proof (Z.mod_pos_bound x 64). lia.
Qed.

Lemma utf8_char_bytes (c : Z) (b : pybytes) :
  utf8_char c = Some b -> Forall (fun x => 0 <= x < 256) b.
Proof.
  unfold utf8_char.
  destruct (c <? 0) eqn:Hneg; [discriminate|].
  destruct (c <? 128) eqn:Hlow.
  { intros [= <-]. repeat constructor; lia. }
  destruct (c <? 2048) eqn:H2.
  { intros [= <-].
    assert (0 <= Z.shiftr c 6 < 32).
    { apply shiftr_below; [change (2 ^ 6) with 64|]; lia. }
    pose proof (land_low6 c).
    pose proof (lor_byte 0xC0 (Z.shiftr c 6)).
    pose proof (lor_byte 0x80 (Z.land c 0x3F)).
    repeat constructor; lia. }
  destruct ((55296 <=? c) && (c <=? 57343)); [discriminate|].
  destruct (c <? 65536) eqn:H3.
  { intros [= <-].
    assert (0 <= Z.shiftr c 12 < 16).
    { apply shiftr_below; [change (2 ^ 12) with 4096|]; lia. }
    pose proof (land_low6 c). pose proof (land_low6 (Z.shiftr c 6)).
    pose proof (lor_byte 0xE0 (Z.shiftr c 12)).
    pose proof (lor_byte 0x80 (Z.land (Z.shiftr c 6) 0x3F)).
    pose proof (lor_byte 0x80 (Z.land c 0x3F)).
    repeat constructor; lia. }
  destruct (c <? 1114112) eqn:H4; [|discriminate].
  intros [= <-].
  assert (0 <= Z.shiftr c 18 < 8).
  { apply shiftr_below; [change (2 ^ 18) with 262144|]; lia. }
  pose proof (land_low6 c). pose proof (land_low6 (Z.shiftr c 6)).
  pose proof (land_low6 (Z.shiftr c 12)).
  pose proof (lor_byte 0xF0 (Z.shiftr c 18)).
  pose proof (lor_byte 0x80 (Z.land (Z.shiftr c 12) 0x3F)).
  pose proof (lor_byte 0x80 (Z.land (Z.shiftr c 6) 0x3F)).
  pose proof (lor_byte 0x80 (Z.land c 0x3F)).
  repeat constructor; lia.
Qed.

Lemma utf8_bytes (s : pystr) (b : pybytes) :
  utf8 s = Some b -> Forall (fun x => 0 <= x < 256) b.
Proof.
  revert b. induction s as [|c s IH]; simpl; intros b.
  - intros [= <-]. constructor.
  - destruct (utf8_char c) as [bc|] eqn:Hc; [|discriminate].
    destruct (utf8 s) as [bs|]; [|discriminate].
    intros [= <-]. apply Forall_app. split.
    + eapply utf8_char_bytes, Hc.
    + apply IH. reflexivity.
Qed.

(** X12.  Every datagram the UDP [send] adds is a string of bytes: each
    of its elements lies between 0 and 255, and it is at least as long as
    the line plus the newline. *)
Theorem udp_datagram_is_bytes (host : pystr) (port : Z) (data : pystr)
    (encoded : pybytes) (s : TelegrafClient.socket) :
  utf8 data = Some encoded ->
  exists datagram : pybytes,
    TelegrafClient.sendto_calls (TelegrafClient.send host port data s).2
    = TelegrafClient.sendto_calls s ++ [(datagram, (host, port))] /\
    Forall (fun x => 0 <= x < 256) datagram /\
    (length data + 1 <= length datagram)%nat.
Proof.
  intros Hutf8. exists (encoded ++ [10]).
  split; [apply udp_send_calls, Hutf8|]. split.
  - apply Forall_app. split; [eapply utf8_bytes, Hutf8|].
    repeat constructor; lia.
  - rewrite length_app. simpl.
    assert (length data <= length encoded)%nat; [|lia].
    clear s. revert encoded Hutf8.
    induction data as [|c data IH]; simpl; intros encoded.
    + intros [= <-]. reflexivity.
    + destruct (utf8_char c) as [bc|] eqn:Hc; [|discriminate].
      destruct (utf8 data) as [bs|]; [|discriminate].
      intros [= <-]. rewrite length_app.
      specialize (IH bs eq_refl).
      assert (1 <= length bc)%nat; [|lia].
      destruct (utf8_char_high_bit c bc Hc) as [[-> _]|_];
        [simpl; lia|].
      revert Hc. unfold utf8_char.
      repeat match goal with
             | |- (if ?t then _ else _) = _ -> _ => destruct t
             end; try discriminate; intros [= <-]; simpl; lia.
Qed.

(** X13.  Two sends make two [sendto] calls, in the order of the sends,
    whatever the socket answered to the first: a datagram that was
    refused is neither kept nor sent again by the next call. *)
Theorem udp_sends_in_order (host : pystr) (port : Z) (first second : pystr)
    (encoded1 encoded2 : pybytes) (s : TelegrafClient.socket) :
  utf8 first = Some encoded1 ->
  utf8 second = Some encoded2 ->
  TelegrafClient.sendto_calls
    (TelegrafClient.send host port second
       (TelegrafClient.send host port first s).2).2
  = TelegrafClient.sendto_calls s
    ++ [(encoded1 ++ [10], (host, port)); (encoded2 ++ [10], (host, port))].
Proof.
  intros H1 H2.
  destruct (udp_send_calls host port second encoded2
              (TelegrafClient.send host port first s).2 H2) as [-> _].
  destruct (udp_send_calls host port first encoded1 s H1) as [-> _].
  rewrite <- app_assoc. reflexivity.
Qed.

(** X14.  [metric] on a UDP client, for a name and values and a line that
    encodes: one datagram, the encoded line and a newline, goes to the
    client's host and port; the clock is not read; and the call returns
    [None] unless the socket answers with an exception that is neither a
    [socket.error] nor a [RuntimeError], which then leaves [metric]. *)
Theorem udp_metric_sends_one_datagram (host : pystr) (port : Z)
    (default_tags tags : option (gmap pystr pystr))
    (measurement_name : option pystr) (values : protocol.pyvalues F)
    (timestamp : option Z) (w : world F TelegrafClient.socket)
    (data : pystr) (encoded : pybytes) :
  bool_of_name measurement_name = true ->
  ClientBase.in_None_or_empty values = false ->
  protocol.to_line_protocol
    (protocol.mkLine measurement_name values
       (ClientBase.dict_merge (ClientBase.or_empty default_tags)
          (ClientBase.or_empty tags)) timestamp) = Ret data ->
  utf8 data = Some encoded ->
  let ended :=
    ClientBase.metric (TelegrafClient.__init__ host port default_tags)
      measurement_name values tags timestamp w in
  TelegrafClient.sendto_calls (transport ended.2)
  = TelegrafClient.sendto_calls (transport w)
    ++ [(encoded ++ [10], (host, port))] /\
  calls ended.2 = calls w ++ [data] /\
  tick ended.2 = tick w /\
  ended.1 =
    match TelegrafClient.fault (transport w)
            (length (TelegrafClient.sendto_calls (transport w))) with
    | None => Ret tt
    | Some e =>
        if caught_by e [socket_error; RuntimeError] then Ret tt else Raise e
    end.
Proof.
  intros Hname Hvalues Hdata Hutf8 ended. subst ended.
  unfold ClientBase.metric. rewrite Hname, Hvalues. simpl.
  unfold bind, lift, ClientBase.self_tags. simpl. rewrite Hdata.
  unfold ClientBase.call_send. simpl.
  destruct (udp_send_calls host port data encoded (transport w) Hutf8)
    as [Hcalls _].
  assert (Hout : (TelegrafClient.send host port data (transport w)).1 =
    match TelegrafClient.fault (transport w)
            (length (TelegrafClient.sendto_calls (transport w))) with
    | None => Ret tt
    | Some e =>
        if caught_by e [socket_error; RuntimeError] then Ret tt else Raise e
    end).
  { unfold TelegrafClient.send, try_except, bind, lift,
      TelegrafClient.encode_utf8, TelegrafClient.sendto, ret.
    rewrite Hutf8.
    destruct (TelegrafClient.fault (transport w) _) as [e|];
      [|reflexivity].
    destruct (caught_by e [socket_error; RuntimeError]); reflexivity. }
  destruct (TelegrafClient.send host port data (transport w)) as [r s'].
  simpl in *. auto.
Qed.

(** X15.  The UDP [send] raises in two cases only.  A line without a
    UTF-8 encoding (a lone surrogate) raises [UnicodeEncodeError] before
    any [sendto] call; for a line that encodes, [send] raises [e] exactly
    when the socket answers the call with [e] and [e] is neither a
    [socket.error] nor a [RuntimeError]. *)
Theorem udp_send_raises_iff (host : pystr) (port : Z) (data : pystr)
    (s : TelegrafClient.socket) :
  (utf8 data = None ->
   exists msg,
     TelegrafClient.send host port data s
     = (Raise (Exn UnicodeEncodeError msg), s)) /\
  (is_Some (utf8 data) ->
   forall e : exn,
     (TelegrafClient.send host port data s).1 = Raise e <->
     TelegrafClient.fault s (length (TelegrafClient.sendto_calls s)) = Some e /\
     isinstance e socket_error = false /\
     isinstance e RuntimeError = false).
Proof.
  unfold TelegrafClient.send, try_except, bind, lift,
    TelegrafClient.encode_utf8, TelegrafClient.sendto, ret.
  split.
  - intros ->. simpl. eexists. reflexivity.
  - intros [encoded ->] e. simpl.
    destruct (TelegrafClient.fault s _) as [e0|] eqn:Hfault; simpl.
    + unfold caught_by. simpl.
      destruct (isinstance e0 socket_error) eqn:Hs,
               (isinstance e0 RuntimeError) eqn:Hr; simpl;
        (split;
         [intros [= <-]; auto
         |intros ([= <-] & Hs' & Hr'); try reflexivity; congruence]).
    + split; [intros [=]|]. intros ([=] & _).
Qed.

(** X16.  [metric] on an HTTP client that could be built, for a name
    and values: one POST is queued, to [http://host:port/write], whose body
    is the encoded line with the merged tags; the call returns [None] and
    the clock is not read. *)
Theorem http_metric_posts_one_request (requests_futures : bool)
    (host : pystr) (port : Z)
    (default_tags tags : option (gmap pystr pystr))
    (client : ClientBase.t HttpClient.session)
    (measurement_name : option pystr) (values : protocol.pyvalues F)
    (timestamp : option Z) (w : world F HttpClient.session) (data : pystr) :
  HttpClient.__init__ requests_futures host port default_tags = Ret client ->
  bool_of_name measurement_name = true ->
  ClientBase.in_None_or_empty values = false ->
  protocol.to_line_protocol
    (protocol.mkLine measurement_name values
       (ClientBase.dict_merge (ClientBase.or_empty default_tags)
          (ClientBase.or_empty tags)) timestamp) = Ret data ->
  ClientBase.metric client measurement_name values tags timestamp w
  = (Ret tt,
     World (tick w) (clock w) (calls w ++ [data])
       (HttpClient.Session
          (HttpClient.posts (transport w)
           ++ [(u "http://" ++ host ++ u ":" ++ str_of_int port ++ u "/write",
                data)]))).
Proof.
  unfold HttpClient.__init__.
  destruct requests_futures; [|discriminate].
  intros [= <-] Hname Hvalues Hdata.
  unfold ClientBase.metric. rewrite Hname, Hvalues. simpl.
  unfold bind, lift, ClientBase.self_tags. simpl. rewrite Hdata.
  reflexivity.
Qed.

End TransportMore.

(** ** The further properties at concrete inputs *)

Section InstancesMore.
Import examples.

Lemma decorator_reports_elapsed_of_call_witness :
  exists data : pystr,
    protocol.to_line_protocol
      (protocol.mkLine (Some (u "app" ++ u "." ++ u "identity"))
         (protocol.VScalar (protocol.FInt 2000))
         (<[u "units" := u "ms"]> ∅) None)
    = Ret data /\
    calls (call (TimerHelper.wrapped named_identity_timer identity) 7
             (world0 quiet_socket)).2
    = [data].
Proof.
  exact (decorator_reports_elapsed_of_call (F:=Z) true unnamed_timer
           named_identity_timer identity
           (TimerHelper.wrapped named_identity_timer identity) 7
           (world0 quiet_socket) eq_refl).
Defined.

Lemma timer_reused_keeps_first_name_witness :
  TimerHelper.measurement_name
    (TimerHelper.__call__ true
       (TimerHelper.__call__ true unnamed_timer
          (identity (T:=TelegrafClient.socket))).1 failing).1
  = Some (u "app" ++ u "." ++ u "identity").
Proof.
  apply (timer_reused_keeps_first_name (F:=Z) true unnamed_timer
           identity failing).
  reflexivity.
Defined.

Lemma decorator_is_transparent_witness :
  (call (TimerHelper.wrapped http_timer failing) 7
     (world0 (HttpClient.Session []))).1
  = Raise (Exn (UserError 0) (u "boom")) /\
  (call (TimerHelper.wrapped http_timer identity) 7
     (world0 (HttpClient.Session []))).1
  = Ret 7.
Proof.
  split.
  - apply (decorator_is_transparent (F:=Z) true http_timer http_timer
             failing (TimerHelper.wrapped http_timer failing) 7
             (world0 (HttpClient.Session [])) eq_refl).
    intros data tr. reflexivity.
  - apply (decorator_is_transparent (F:=Z) true http_timer http_timer
             identity (TimerHelper.wrapped http_timer identity) 7
             (world0 (HttpClient.Session [])) eq_refl).
    intros data tr. reflexivity.
Defined.



Lemma entered_timer_is_reusable_witness :
  TimerHelper.__enter__
    (TimerHelper.mk udp_client (Some (u "job")) {[u "units" := u "hours"]}
       true (Some 100))
    (world0 refusing_socket)
  = TimerHelper.__enter__ job_timer (world0 refusing_socket).
Proof.
  apply (entered_timer_is_reusable (F:=Z) job_timer _ failing_body
           (world0 quiet_socket) (time (world0 quiet_socket)).2
           (world0 refusing_socket)).
  reflexivity.
Defined.

Lemma udp_datagram_single_newline_witness :
  10 ∉ [99; 195; 169].
Proof.
  apply (udp_datagram_single_newline (u "localhost") 8094 [99; 233]
           [99; 195; 169] quiet_socket eq_refl).
  intros Hin. repeat (apply elem_of_cons in Hin as [Hin|Hin];
                      [discriminate|]).
  inversion Hin.
Defined.

Lemma udp_datagram_is_bytes_witness :
  exists datagram : pybytes,
    TelegrafClient.sendto_calls
      (TelegrafClient.send (u "localhost") 8094 [99; 0x20AC] quiet_socket).2
    = [(datagram, (u "localhost", 8094))] /\
    Forall (fun x => 0 <= x < 256) datagram.
Proof.
  destruct (udp_datagram_is_bytes (u "localhost") 8094 [99; 0x20AC]
              [99; 226; 130; 172] quiet_socket eq_refl)
    as (datagram & Hcalls & Hbytes & _).
  exists datagram. split; [exact Hcalls|exact Hbytes].
Defined.

Lemma udp_sends_in_order_witness :
  TelegrafClient.sendto_calls
    (TelegrafClient.send (u "localhost") 8094 [98]
       (TelegrafClient.send (u "localhost") 8094 [97] refusing_socket).2).2
  = [([97; 10], (u "localhost", 8094)); ([98; 10], (u "localhost", 8094))].
Proof.
  apply (udp_sends_in_order (u "localhost") 8094 [97] [98] [97] [98]
           refusing_socket); reflexivity.
Defined.

Lemma udp_metric_sends_one_datagram_witness :
  TelegrafClient.sendto_calls
    (transport
       (ClientBase.metric udp_client (Some (u "cpu"))
          (protocol.VScalar (protocol.FInt 50)) None None
          (world0 refusing_socket)).2)
  = [(u "cpu,env=prod value=50i" ++ [10], (u "localhost", 8094))] /\
  (ClientBase.metric udp_client (Some (u "cpu"))
     (protocol.VScalar (protocol.FInt 50)) None None
     (world0 refusing_socket)).1
  = Ret tt.
Proof.
  assert (Hline : protocol.to_line_protocol (F:=Z)
            (protocol.mkLine (Some (u "cpu"))
               (protocol.VScalar (protocol.FInt 50))
               (ClientBase.dict_merge
                  (ClientBase.or_empty (Some {[u "env" := u "prod"]}))
                  (ClientBase.or_empty None)) None)
          = Ret (u "cpu,env=prod value=50i")).
  { vm_compute. reflexivity. }
  destruct (udp_metric_sends_one_datagram (F:=Z) (u "localhost") 8094
              (Some {[u "env" := u "prod"]}) None (Some (u "cpu"))
              (protocol.VScalar (protocol.FInt 50)) None
              (world0 refusing_socket) (u "cpu,env=prod value=50i")
              (u "cpu,env=prod value=50i")
              eq_refl eq_refl Hline eq_refl)
    as (Hcalls & _ & _ & Hout).
  split; [exact Hcalls|exact Hout].
Defined.

Lemma udp_send_raises_iff_witness :
  (exists msg,
     TelegrafClient.send (u "localhost") 8094 [0xD800] quiet_socket
     = (Raise (Exn UnicodeEncodeError msg), quiet_socket)) /\
  (TelegrafClient.send (u "localhost") 99999 [97] overflowing_socket).1
  = Raise (Exn OverflowError (u "port must be 0-65535.")).
Proof.
  split.
  - apply (udp_send_raises_iff (u "localhost") 8094 [0xD800]
             quiet_socket). reflexivity.
  - apply (udp_send_raises_iff (u "localhost") 99999 [97]
             overflowing_socket).
    + eexists. reflexivity.
    + split; [reflexivity|split; reflexivity].
Defined.

Lemma http_metric_posts_one_request_witness :
  ClientBase.metric http_client (Some (u "cpu"))
    (protocol.VScalar (protocol.FInt 50)) (Some {[u "host" := u "a"]}) None
    (world0 (HttpClient.Session []))
  = (Ret tt,
     World 0%nat (clock (world0 (HttpClient.Session [])))
       [u "cpu,host=a value=50i"]
       (HttpClient.Session
          [(u "http://" ++ u "localhost" ++ u ":" ++ str_of_int 8094
              ++ u "/write",
            u "cpu,host=a value=50i")])).
Proof.
  assert (Hline : protocol.to_line_protocol (F:=Z)
            (protocol.mkLine (Some (u "cpu"))
               (protocol.VScalar (protocol.FInt 50))
               (ClientBase.dict_merge (ClientBase.or_empty None)
                  (ClientBase.or_empty (Some {[u "host" := u "a"]}))) None)
          = Ret (u "cpu,host=a value=50i")).
  { vm_compute. reflexivity. }
  exact (http_metric_posts_one_request (F:=Z) true (u "localhost") 8094
           None (Some {[u "host" := u "a"]}) http_client (Some (u "cpu"))
           (protocol.VScalar (protocol.FInt 50)) None
           (world0 (HttpClient.Session [])) (u "cpu,host=a value=50i")
           eq_refl eq_refl eq_refl Hline).
Defined.

End InstancesMore.
